(* Verification development for the pointshub_api client library
   (src/pointshub_api): the request pipeline of client.py, the operation
   wrappers of methods/steam.py and the payload validators of
   models/steam.py, as a shallow embedding in Rocq.

   Modelling conventions.
   - A Python str is a Rocq [string]; each [ascii] is one code point in
     U+0000..U+00FF (Latin-1).  [len] is [String.length], [startswith] is
     [String.prefix].
   - Exceptions are values of [pyexn]: a class and a message.  Classes are
     an enumeration with their method resolution order written out, so that
     [isinstance] and Python's [except (A, B)] matching can be computed.
   - The HTTP transport is a mock: [transport k] is what the [k]-th call
     (0-based) of [session.request] produces, either a response or a raised
     transport exception.  Every network call and every sleep is recorded in
     an event trace. *)

From Stdlib Require Import List String Ascii ZArith Bool Lia.
Import ListNotations.
Open Scope string_scope.
Open Scope Z_scope.

(* ------------------------------------------------------------------ *)
(** * Python classes and exceptions *)

Inductive pyclass :=
  | object_
  | BaseException_
  | Exception_
  | TypeError_
  | ValueError_
  | AttributeError_
  | OSError_
  | TimeoutError_            (* asyncio.TimeoutError = TimeoutError (3.11) *)
  | ClientError              (* aiohttp.ClientError *)
  | ClientConnectionError    (* aiohttp.ClientConnectionError *)
  | ClientResponseError      (* aiohttp.ClientResponseError *)
  | ContentTypeError         (* aiohttp.ContentTypeError *)
  | ValidationError          (* pydantic.ValidationError *)
  | APIError                 (* errors.py *)
  | APIConnectionError
  | APITimeoutError
  | APIAuthenticationError
  | APIServerError
  | APIClientError
  | ClientTimeout.           (* aiohttp.ClientTimeout: a settings record,
                                not an exception class *)

Definition pyclass_eq_dec (a b : pyclass) : {a = b} + {a <> b}.
Proof. decide equality. Defined.

Definition pyclass_eqb (a b : pyclass) : bool :=
  if pyclass_eq_dec a b then true else false.

(** The method resolution order of each class (the class itself first). *)
Definition mro (c : pyclass) : list pyclass :=
  let exc := [Exception_; BaseException_; object_] in
  match c with
  | object_ => [object_]
  | BaseException_ => [BaseException_; object_]
  | Exception_ => exc
  | TypeError_ => TypeError_ :: exc
  | ValueError_ => ValueError_ :: exc
  | AttributeError_ => AttributeError_ :: exc
  | OSError_ => OSError_ :: exc
  | TimeoutError_ => TimeoutError_ :: OSError_ :: exc
  | ClientError => ClientError :: exc
  | ClientConnectionError => ClientConnectionError :: ClientError :: exc
  | ClientResponseError => ClientResponseError :: ClientError :: exc
  | ContentTypeError =>
      ContentTypeError :: ClientResponseError :: ClientError :: exc
  | ValidationError => ValidationError :: ValueError_ :: exc
  | APIError => APIError :: exc
  | APIConnectionError => APIConnectionError :: APIError :: exc
  | APITimeoutError => APITimeoutError :: APIError :: exc
  | APIAuthenticationError => APIAuthenticationError :: APIError :: exc
  | APIServerError => APIServerError :: APIError :: exc
  | APIClientError => APIClientError :: APIError :: exc
  | ClientTimeout => [ClientTimeout; object_]
  end.

Definition issubclass (c d : pyclass) : bool := existsb (pyclass_eqb d) (mro c).

Definition is_exception_class (c : pyclass) : bool :=
  issubclass c BaseException_.

Record pyexn := mk_exn { exn_class : pyclass; exn_msg : string }.

Definition isinstance (e : pyexn) (c : pyclass) : bool :=
  issubclass (exn_class e) c.

(** Evaluation of an [except (h1, ..., hn)] clause against a raised
    exception.  CPython first checks that every element of the tuple is an
    exception class, and raises [TypeError] otherwise, whatever the raised
    exception is; only then does it test [isinstance]. *)
Inductive except_result := Handled | NotHandled | HandlerTypeError.

Definition except_match (handlers : list pyclass) (e : pyexn) : except_result :=
  if forallb is_exception_class handlers then
    if existsb (isinstance e) handlers then Handled else NotHandled
  else HandlerTypeError.

Definition CANNOT_CATCH_MSG : string :=
  "catching classes that do not inherit from BaseException is not allowed".

(* ------------------------------------------------------------------ *)
(** * JSON values and Python formatting *)

#[local] Set Warnings "-register-all".

(** JSON numbers are restricted to integers. *)
Inductive json :=
  | JNull
  | JBool (b : bool)
  | JInt (z : Z)
  | JStr (s : string)
  | JArr (l : list json)
  | JObj (kv : list (string * json)).

Fixpoint digits_of_pos (fuel : nat) (n : Z) (acc : string) : string :=
  match fuel with
  | O => acc
  | S fuel' =>
      let d := Z.modulo n 10 in
      let acc' := String (ascii_of_nat (48 + Z.to_nat d)) acc in
      if n <? 10 then acc' else digits_of_pos fuel' (Z.div n 10) acc'
  end.

(** [str(z)] for a Python int. *)
Definition string_of_Z (z : Z) : string :=
  let fuel := S (Pos.size_nat (Z.to_pos (Z.abs z + 1))) in
  if z <? 0 then "-" ++ digits_of_pos fuel (- z) ""
  else digits_of_pos fuel z "".

Fixpoint concat_sep (sep : string) (l : list string) : string :=
  match l with
  | [] => ""
  | [x] => x
  | x :: rest => x ++ sep ++ concat_sep sep rest
  end.

(** [repr] of a decoded JSON value (a str is quoted with single quotes; the
    escaping of quotes and non-printable characters is not modelled). *)
Fixpoint py_repr (j : json) : string :=
  match j with
  | JNull => "None"
  | JBool true => "True"
  | JBool false => "False"
  | JInt z => string_of_Z z
  | JStr s => "'" ++ s ++ "'"
  | JArr l => "[" ++ concat_sep ", " (map py_repr l) ++ "]"
  | JObj kv =>
      "{" ++ concat_sep ", "
        (map (fun p => "'" ++ fst p ++ "': " ++ py_repr (snd p)) kv) ++ "}"
  end.

(** [str(v)] (what an f-string inserts). *)
Definition py_str (j : json) : string :=
  match j with
  | JStr s => s
  | _ => py_repr j
  end.

(** [dict.get(key, default)] on the decoded body; [json.loads] keeps the
    last of duplicate keys.  A body that is not a dict has no [get]. *)
Definition dict_get (j : json) (key : string) (default : json)
  : pyexn + json :=
  match j with
  | JObj kv =>
      match find (fun p => String.eqb (fst p) key) (rev kv) with
      | Some (_, v) => inr v
      | None => inr default
      end
  | _ => inl (mk_exn AttributeError_ "object has no attribute 'get'")
  end.

(* ------------------------------------------------------------------ *)
(** * Client state (client.py, PointsHubClient) *)

(** An aiohttp ClientSession, observed through its [closed] flag. *)
Record session := mk_session { sess_closed : bool }.

Record client := mk_client {
  base_url : string;
  api_key : option string;           (* Optional[str] *)
  _max_retries : Z;
  _request_timeout : Z;
  sess : option session              (* self.session *)
}.

(** Observable effects: session creation and release, network calls and
    backoff sleeps. *)
Inductive event :=
  | SessionCreated (timeout : Z)
  | SessionReleased
  | HttpCall (method : string) (url : string) (body : option json)
  | Sleep (secs : Z).

Definition set_session (c : client) (s : option session) : client :=
  mk_client (base_url c) (api_key c) (_max_retries c) (_request_timeout c) s.

(** [PointsHubClient.__init__]: no session yet. *)
Definition PointsHubClient (api_key : option string) (base_url : string)
    (max_retries request_timeout : Z) : client :=
  mk_client base_url api_key max_retries request_timeout None.

Definition default_client (key : option string) : client :=
  PointsHubClient key "https://api.buysteampoints.com" 3 1800.

(** [if self.session and not self.session.closed] *)
Definition session_open (c : client) : bool :=
  match sess c with
  | Some s => negb (sess_closed s)
  | None => false
  end.

(** [PointsHubClient.close]. *)
Definition close (c : client) : client * list event :=
  if session_open c then (set_session c None, [SessionReleased])
  else (c, []).

(** [PointsHubClient._ensure_session] (single caller: the lock and the
    re-check do not change the sequential behaviour). *)
Definition _ensure_session (c : client) : client * list event :=
  if session_open c then (c, [])
  else (set_session c (Some (mk_session false)),
        [SessionCreated (_request_timeout c)]).

(** [PointsHubClient.set_api_key]. *)
Definition set_api_key (c : client) (k : string) : client :=
  mk_client (base_url c) (Some k) (_max_retries c) (_request_timeout c) (sess c).

(* ------------------------------------------------------------------ *)
(** * The request pipeline (client.py, _make_request) *)

(** What one [session.request] call produces: a response with a status
    and a body ([None]: the body does not decode as JSON), or a raised
    transport exception. *)
Inductive attempt_result :=
  | Response (status : Z) (body : option json)
  | Fault (e : pyexn).

Definition transport := nat -> attempt_result.

Inductive outcome :=
  | Return (j : json)
  | Raise (e : pyexn).

(** The body of the [try] block for one attempt (lines 161-180). *)
Definition attempt_body (r : attempt_result) : outcome :=
  match r with
  | Fault e => Raise e
  | Response status body =>
      match body with
      | None => Raise (mk_exn ContentTypeError "Attempt to decode JSON")
      | Some result =>
          if 400 <=? status then
            match dict_get result "error" (JStr "Unknown error") with
            | inl e => Raise e
            | inr v =>
                let error_msg := py_str v in
                if (400 <=? status) && (status <? 500) then
                  Raise (mk_exn APIClientError
                    ("Client error: " ++ string_of_Z status ++ " " ++ error_msg))
                else
                  Raise (mk_exn APIServerError
                    ("Server error: " ++ string_of_Z status ++ " " ++ error_msg))
            end
          else Return result
      end
  end.

(** The exception classes named by the [except] clause at line 182. *)
Definition source_handlers : list pyclass := [ClientConnectionError; ClientTimeout].

(** How the [for] loop ends: by a [return] or [raise] inside it, or by
    running out of attempt indices (falling through to line 196). *)
Inductive loop_exit :=
  | LoopDone (o : outcome)
  | LoopExhausted.

(** The loop [for attempt in range(self._max_retries)] over the remaining
    attempt indices, for a given [except] tuple. *)
Fixpoint attempt_loop (handlers : list pyclass) (max_retries : Z)
    (tr : transport) (method url : string) (json_data : option json)
    (attempts : list nat) : loop_exit * list event :=
  match attempts with
  | [] => (LoopExhausted, [])
  | attempt :: rest =>
      let call := HttpCall method url json_data in
      match attempt_body (tr attempt) with
      | Return result => (LoopDone (Return result), [call])
      | Raise e =>
          match except_match handlers e with
          | NotHandled => (LoopDone (Raise e), [call])
          | HandlerTypeError =>
              (LoopDone (Raise (mk_exn TypeError_ CANNOT_CATCH_MSG)), [call])
          | Handled =>
              if Z.of_nat attempt <? max_retries - 1 then
                let wait_time := 1 * 2 ^ Z.of_nat attempt in
                let (x, evs) :=
                  attempt_loop handlers max_retries tr method url json_data rest in
                (x, call :: Sleep wait_time :: evs)
              else
                let error_class :=
                  if isinstance e ClientConnectionError then APIConnectionError
                  else APITimeoutError in
                (LoopDone (Raise (mk_exn error_class
                   ("Request failed after " ++ string_of_Z max_retries
                    ++ " attempts."))), [call])
          end
      end
  end.

(** [range(n)] *)
Definition py_range (n : Z) : list nat := seq 0 (Z.to_nat n).

Definition make_request_with (handlers : list pyclass) (c : client)
    (tr : transport) (method endpoint : string) (json_data : option json)
    : outcome * client * list event :=
  let url := base_url c ++ endpoint in
  let (c', ev0) := _ensure_session c in
  let (x, evs) := attempt_loop handlers (_max_retries c') tr method url json_data
                    (py_range (_max_retries c')) in
  let o := match x with
           | LoopDone o => o
           | LoopExhausted =>
               Raise (mk_exn APIError "Request failed after all retries.")
           end in
  (o, c', (ev0 ++ evs)%list).

(** [PointsHubClient._make_request] as written. *)
Definition _make_request := make_request_with source_handlers.

(** The [except] tuple with the timeout exception class that aiohttp raises
    ([asyncio.TimeoutError]) in place of [ClientTimeout]; used to compare
    the written pipeline with the one its docstring describes. *)
Definition exception_handlers : list pyclass := [ClientConnectionError; TimeoutError_].

(** Network calls in a trace. *)
Definition http_calls (evs : list event) : nat :=
  List.length (filter (fun e => match e with HttpCall _ _ _ => true | _ => false end) evs).

(** Backoff sleeps in a trace. *)
Definition sleeps (evs : list event) : list Z :=
  flat_map (fun e => match e with Sleep s => [s] | _ => [] end) evs.

(* ------------------------------------------------------------------ *)
(** * Payload models (models/steam.py, enums/steam.py) *)

(** [SteamPointsConstants] *)
Definition MIN_POINTS : Z := 100.
Definition POINT_MULTIPLE : Z := 100.

(** [str.startswith] *)
Definition startswith (s pre : string) : bool := String.prefix pre s.

(** [str.isdigit] on one code point of U+0000..U+00FF: the ASCII digits and
    the superscripts U+00B2, U+00B3, U+00B9. *)
Definition py_isdigit_char (a : ascii) : bool :=
  let n := nat_of_ascii a in
  ((48 <=? n) && (n <=? 57))%nat || (n =? 178)%nat || (n =? 179)%nat
  || (n =? 185)%nat.

Fixpoint all_chars (p : ascii -> bool) (s : string) : bool :=
  match s with
  | EmptyString => true
  | String a rest => p a && all_chars p rest
  end.

(** [str.isdigit]: non-empty and every character a digit. *)
Definition py_isdigit (s : string) : bool :=
  match s with
  | EmptyString => false
  | _ => all_chars py_isdigit_char s
  end.

(** [BuyOrder.validate_puan_multiple]: [inl] is the raised ValueError's
    message, [inr] the value the validator returns. *)
Definition validate_puan_multiple (v : Z) : string + Z :=
  if v <? MIN_POINTS then
    inl ("Points must be at least " ++ string_of_Z MIN_POINTS)
  else if negb (Z.modulo v POINT_MULTIPLE =? 0) then
    inl ("Points must be a multiple of " ++ string_of_Z POINT_MULTIPLE)
  else inr v.

(** [BuyOrder.validate_steam_link]. *)
Definition validate_steam_link (v : string) : string + string :=
  if startswith v "https://" then inr v
  else if startswith v "7656" && (String.length v =? 17)%nat && py_isdigit v
  then inr v
  else inl ("Steam link must be a URL starting with https:// or a valid "
            ++ "Steam64ID").

Record BuyOrder := mk_BuyOrder {
  bo_api_key : string;
  puan : Z;
  steam_link : string
}.

Record GetBalance := mk_GetBalance { gb_api_key : string }.

(** [BuyOrder(api_key=..., puan=..., steam_link=...)]: pydantic runs every
    field validator and raises one ValidationError if any of them fails. *)
Definition BuyOrder_new (key : string) (p : Z) (link : string) : pyexn + BuyOrder :=
  match validate_puan_multiple p, validate_steam_link link with
  | inr p', inr link' => inr (mk_BuyOrder key p' link')
  | _, _ => inl (mk_exn ValidationError "validation error for BuyOrder")
  end.

(** [.dict()] of the models, fields in declaration order. *)
Definition BuyOrder_dict (o : BuyOrder) : json :=
  JObj [("api_key", JStr (bo_api_key o)); ("puan", JInt (puan o));
        ("steam_link", JStr (steam_link o))].

Definition GetBalance_dict (g : GetBalance) : json :=
  JObj [("api_key", JStr (gb_api_key g))].

(* ------------------------------------------------------------------ *)
(** * Operation wrappers (methods/steam.py, SteamMethods) *)

Definition BASE_PATH : string := "/api".

(** [SteamMethods.get_endpoints] *)
Definition get_endpoints (name : string) : string :=
  BASE_PATH ++ "/" ++ name.

(** [if not self._client.api_key]: None and "" are falsy. *)
Definition api_key_missing (k : option string) : bool :=
  match k with
  | None => true
  | Some s => String.eqb s ""
  end.

Definition key_of (k : option string) : string :=
  match k with Some s => s | None => "" end.

(** [SteamMethods.get_price] *)
Definition get_price (c : client) (tr : transport) : outcome * client * list event :=
  _make_request c tr "GET" (get_endpoints "price") None.

(** [SteamMethods.buy] *)
Definition buy (c : client) (tr : transport) (p : Z) (link : string)
    : outcome * client * list event :=
  if api_key_missing (api_key c) then
    (Raise (mk_exn ValueError_ "API key is required for buy operations"), c, [])
  else
    match BuyOrder_new (key_of (api_key c)) p link with
    | inl e => (Raise e, c, [])
    | inr order_data =>
        _make_request c tr "POST" (get_endpoints "buy")
          (Some (BuyOrder_dict order_data))
    end.

(** [SteamMethods.get_balance] *)
Definition get_balance (c : client) (tr : transport) : outcome * client * list event :=
  if api_key_missing (api_key c) then
    (Raise (mk_exn ValueError_ "API key is required for balance operations"), c, [])
  else
    let balance_data := mk_GetBalance (key_of (api_key c)) in
    _make_request c tr "POST" (get_endpoints "balance")
      (Some (GetBalance_dict balance_data)).

(** The error kinds of errors.py (APIError and its five subclasses). *)
Definition in_taxonomy (e : pyexn) : bool := isinstance e APIError.

(** Caller-misuse errors: ValueError, which pydantic's ValidationError
    subclasses. *)
Definition precondition_error (e : pyexn) : bool := isinstance e ValueError_.

(** Exactly the results the spec allows an operation to produce. *)
Definition allowed_outcome (o : outcome) : bool :=
  match o with
  | Return (JObj _) => true
  | Return _ => false
  | Raise e => in_taxonomy e || precondition_error e
  end.

(* ------------------------------------------------------------------ *)
(** * Concrete inputs *)

Definition timeout_fault : pyexn := mk_exn TimeoutError_ "".
Definition connection_fault : pyexn :=
  mk_exn ClientConnectionError "Cannot connect to host".

(** A mock transport: two timeouts, then a 200 response. *)
Definition two_timeouts_then_ok : transport :=
  fun k => match k with
           | 0%nat | 1%nat => Fault timeout_fault
           | _ => Response 200 (Some (JObj [("price", JInt 2)]))
           end.

(** A mock transport that fails with a connection fault on every call. *)
Definition always_connection_fault : transport := fun _ => Fault connection_fault.

(** A mock transport answering HTTP 500 with an error body. *)
Definition server_500 : transport :=
  fun _ => Response 500 (Some (JObj [("error", JStr "maintenance")])).

Definition type_error : pyexn := mk_exn TypeError_ CANNOT_CATCH_MSG.

(** The string "7656" followed by thirteen superscript twos (U+00B2). *)
Fixpoint repeat_char (n : nat) (a : ascii) : string :=
  match n with
  | O => EmptyString
  | S n' => String a (repeat_char n' a)
  end.

Definition superscript_steam_link : string :=
  "7656" ++ repeat_char 13 (ascii_of_nat 178).

(** The ASCII decimal digits 0-9. *)
Definition ascii_decimal (a : ascii) : bool :=
  let n := nat_of_ascii a in ((48 <=? n) && (n <=? 57))%nat.

(* ------------------------------------------------------------------ *)
(** * Scoped use of the client (client.py, __aenter__ / __aexit__) *)






(** Session creations and releases in a trace. *)
Definition sessions_created (evs : list event) : nat :=
  List.length (filter (fun e => match e with SessionCreated _ => true | _ => false end) evs).

Definition sessions_released (evs : list event) : nat :=
  List.length (filter (fun e => match e with SessionReleased => true | _ => false end) evs).

(* ------------------------------------------------------------------ *)
(** * Lemmas on the pipeline *)

(** The [except] tuple of line 182 names a class that is not an exception
    class, so evaluating it fails for every raised exception. *)
Lemma except_match_source (e : pyexn) :
  except_match source_handlers e = HandlerTypeError.
Proof. reflexivity. Qed.

(** With the [except] tuple as written, the first attempt always ends the
    loop: a result is returned, or TypeError is raised. *)
Lemma attempt_loop_source_first (m : Z) (tr : transport) (method url : string)
    (d : option json) (a : nat) (rest : list nat) :
  attempt_loop source_handlers m tr method url d (a :: rest) =
  match attempt_body (tr a) with
  | Return r => (LoopDone (Return r), [HttpCall method url d])
  | Raise _ => (LoopDone (Raise type_error), [HttpCall method url d])
  end.
Proof. simpl. destruct (attempt_body (tr a)); reflexivity. Qed.

(** Every iteration starts with the network call. *)
Lemma attempt_loop_first_event (h : list pyclass) (m : Z) (tr : transport)
    (method url : string) (d : option json) (a : nat) (rest : list nat) :
  exists evs, snd (attempt_loop h m tr method url d (a :: rest))
              = HttpCall method url d :: evs.
Proof.
  simpl. destruct (attempt_body (tr a)) as [r|e]; [eexists; reflexivity|].
  destruct (except_match h e); try (eexists; reflexivity).
  destruct (Z.of_nat a <? m - 1);
    [destruct (attempt_loop h m tr method url d rest)|]; eexists; reflexivity.
Qed.

(** A loop over [range(m)] started at [s] with [n >= 1] indices left never
    runs out of indices: the last one either returns or raises. *)
Lemma attempt_loop_seq_done (h : list pyclass) (m : Z) (tr : transport)
    (method url : string) (d : option json) (n s : nat) :
  (1 <= n)%nat -> Z.of_nat (s + n) = m ->
  fst (attempt_loop h m tr method url d (seq s n)) <> LoopExhausted.
Proof.
  revert s. induction n as [|n IH]; intros s Hn Hm; [lia|].
  cbn [seq attempt_loop].
  destruct (attempt_body (tr s)) as [r|e]; [discriminate|].
  destruct (except_match h e); try discriminate.
  destruct (Z.of_nat s <? m - 1) eqn:E; [|discriminate].
  destruct n as [|n].
  - apply Z.ltb_lt in E. lia.
  - specialize (IH (S s)).
    destruct (attempt_loop h m tr method url d (seq (S s) (S n))) as [x evs].
    simpl in *. apply IH; lia.
Qed.

(** [_ensure_session] leaves the configuration alone. *)
Lemma ensure_session_config (c : client) :
  base_url (fst (_ensure_session c)) = base_url c /\
  _max_retries (fst (_ensure_session c)) = _max_retries c /\
  api_key (fst (_ensure_session c)) = api_key c.
Proof. unfold _ensure_session. destruct (session_open c); auto. Qed.

(** A request whose budget allows an attempt issues its call. *)
Lemma make_request_calls (h : list pyclass) (c : client) (tr : transport)
    (method endpoint : string) (d : option json) :
  1 <= _max_retries c ->
  In (HttpCall method (base_url c ++ endpoint) d)
     (snd (make_request_with h c tr method endpoint d)).
Proof.
  intros Hm. unfold make_request_with.
  destruct (ensure_session_config c) as [Hb [Hr _]].
  destruct (_ensure_session c) as [c' ev0]. simpl in Hb, Hr.
  unfold py_range. rewrite Hr.
  destruct (Z.to_nat (_max_retries c)) as [|k] eqn:Ek; [lia|].
  cbn [seq].
  destruct (attempt_loop_first_event h (_max_retries c) tr method
              (base_url c ++ endpoint) d 0 (seq 1 k)) as [evs Hevs].
  destruct (attempt_loop h (_max_retries c) tr method (base_url c ++ endpoint) d
              (0%nat :: seq 1 k)) as [x evs'] eqn:L.
  simpl in Hevs. subst evs'. simpl.
  apply in_or_app. right. left. reflexivity.
Qed.

(** The same loop with [asyncio.TimeoutError] in the [except] tuple: two
    timeouts then a 200 response give the response, after two backoff
    sleeps of 1 s and 2 s. *)
Lemma fixed_timeouts_then_ok :
  make_request_with exception_handlers (default_client (Some "k"))
    two_timeouts_then_ok "GET" (get_endpoints "price") None
  = (Return (JObj [("price", JInt 2)]),
     set_session (default_client (Some "k")) (Some (mk_session false)),
     [SessionCreated 1800;
      HttpCall "GET" "https://api.buysteampoints.com/api/price" None; Sleep 1;
      HttpCall "GET" "https://api.buysteampoints.com/api/price" None; Sleep 2;
      HttpCall "GET" "https://api.buysteampoints.com/api/price" None]).
Proof. vm_compute. reflexivity. Qed.

(** With [asyncio.TimeoutError] in the [except] tuple, a timeout on every
    attempt ends in APITimeoutError naming the number of attempts. *)
Lemma fixed_persistent_timeout (tr : transport) :
  (forall k, tr k = Fault timeout_fault) ->
  fst (fst (make_request_with exception_handlers (default_client (Some "k"))
             tr "GET" (get_endpoints "price") None))
  = Raise (mk_exn APITimeoutError "Request failed after 3 attempts.").
Proof.
  intros H. unfold make_request_with, attempt_loop. simpl.
  rewrite !H. vm_compute. reflexivity.
Qed.

(** With [asyncio.TimeoutError] in the [except] tuple, a connection fault on
    every call gives 3 calls, sleeps of 1 s and 2 s in between, and an
    APIConnectionError whose message says "3 attempts". *)
Lemma fixed_persistent_connection_fault (tr : transport) (method endpoint : string)
    (d : option json) :
  (forall k, exists msg, tr k = Fault (mk_exn ClientConnectionError msg)) ->
  let '(o, _, evs) :=
    make_request_with exception_handlers (default_client (Some "k")) tr
      method endpoint d in
  o = Raise (mk_exn APIConnectionError "Request failed after 3 attempts.") /\
  http_calls evs = 3%nat /\ sleeps evs = [1; 2].
Proof.
  intros H.
  destruct (H 0%nat) as [m0 H0]. destruct (H 1%nat) as [m1 H1].
  destruct (H 2%nat) as [m2 H2].
  unfold make_request_with, attempt_loop. simpl.
  rewrite H0, H1, H2. vm_compute. auto.
Qed.

(** With [asyncio.TimeoutError] in the [except] tuple, a status of 400 or
    more on the first call raises the client or server error at once, with
    the status and the body's error field in the message. *)
Lemma fixed_http_error (c : client) (tr : transport) (method endpoint : string)
    (d : option json) (status : Z) (kv : list (string * json)) :
  1 <= _max_retries c -> 400 <= status ->
  tr 0%nat = Response status (Some (JObj kv)) ->
  let v := match dict_get (JObj kv) "error" (JStr "Unknown error") with
           | inr v => v | inl _ => JNull end in
  let '(o, _, evs) := make_request_with exception_handlers c tr method endpoint d in
  o = Raise (mk_exn (if status <? 500 then APIClientError else APIServerError)
               ((if status <? 500 then "Client error: " else "Server error: ")
                ++ string_of_Z status ++ " " ++ py_str v)) /\
  http_calls evs = 1%nat /\ sleeps evs = [].
Proof.
  intros Hm Hs Ht. unfold make_request_with.
  destruct (ensure_session_config c) as [_ [Hr _]].
  destruct (_ensure_session c) as [c' ev0] eqn:Ee. simpl in Hr.
  assert (Hev0 : http_calls ev0 = 0%nat /\ sleeps ev0 = []).
  { unfold _ensure_session in Ee. destruct (session_open c);
      injection Ee as _ <-; split; reflexivity. }
  unfold py_range. rewrite Hr.
  destruct (Z.to_nat (_max_retries c)) as [|k] eqn:Ek; [lia|].
  cbn [seq attempt_loop]. rewrite Ht. unfold attempt_body.
  assert (E1 : (400 <=? status) = true) by (apply Z.leb_le; lia).
  rewrite E1. simpl dict_get.
  destruct (find (fun p => String.eqb (fst p) "error") (rev kv)) as [[k' v]|];
  (destruct (status <? 500) eqn:E2;
   [ simpl; unfold except_match; simpl
   | simpl; unfold except_match; simpl ]);
  unfold http_calls, sleeps in *; rewrite ?filter_app, ?length_app, ?flat_map_app;
  destruct Hev0 as [Hc Hsl]; rewrite ?Hc, ?Hsl; simpl; auto.
Qed.

(** With the [except] tuple as written, any exception raised by the first
    attempt (transport fault, HTTP error, undecodable body) leaves
    _make_request as TypeError, after one call and no sleep. *)
Lemma source_first_raise_type_error (c : client) (tr : transport)
    (method endpoint : string) (d : option json) (e : pyexn) :
  1 <= _max_retries c -> attempt_body (tr 0%nat) = Raise e ->
  let '(o, _, evs) := _make_request c tr method endpoint d in
  o = Raise type_error /\ http_calls evs = 1%nat /\ sleeps evs = [].
Proof.
  intros Hm He. unfold _make_request, make_request_with.
  destruct (ensure_session_config c) as [_ [Hr _]].
  destruct (_ensure_session c) as [c' ev0] eqn:Ee. simpl in Hr.
  assert (Hev0 : http_calls ev0 = 0%nat /\ sleeps ev0 = []).
  { unfold _ensure_session in Ee. destruct (session_open c);
      injection Ee as _ <-; split; reflexivity. }
  unfold py_range. rewrite Hr.
  destruct (Z.to_nat (_max_retries c)) as [|k] eqn:Ek; [lia|].
  cbn [seq]. rewrite attempt_loop_source_first, He.
  unfold http_calls, sleeps in *.
  rewrite filter_app, length_app, flat_map_app.
  destruct Hev0 as [Hc Hsl]. rewrite Hc, Hsl. simpl. auto.
Qed.

(* ------------------------------------------------------------------ *)
(** * Claims about the request pipeline *)

(** C1: a timeout fault is meant to be retried, and a transport that times
    out twice then succeeds should yield the JSON body (max_retries = 3).
    As written, the first timeout reaches [except (ClientConnectionError,
    ClientTimeout)], whose evaluation raises TypeError: no retry, no sleep,
    no APITimeoutError, no JSON body. *)
Theorem C1_timeout_then_ok_raises_type_error :
  let '(o, _, evs) :=
    _make_request (default_client (Some "k")) two_timeouts_then_ok
      "GET" (get_endpoints "price") None in
  o = Raise type_error /\ http_calls evs = 1%nat /\ sleeps evs = [].
Proof. vm_compute. auto. Qed.

(** C2: a connection fault on every attempt with max_retries = 3 should give
    3 calls, sleeps of 1 s and 2 s, and APIConnectionError "... 3
    attempts.".  As written: one call, no sleep, TypeError. *)
Theorem C2_connection_faults_raise_type_error :
  let '(o, _, evs) :=
    _make_request (default_client (Some "k")) always_connection_fault
      "GET" (get_endpoints "price") None in
  o = Raise type_error /\ http_calls evs = 1%nat /\ sleeps evs = [] /\
  o <> Raise (mk_exn APIConnectionError "Request failed after 3 attempts.").
Proof. vm_compute. repeat split; discriminate. Qed.

(** C3: an HTTP 500 with error body "maintenance" should raise
    APIServerError "Server error: 500 maintenance" without retry or sleep.
    As written there is no retry and no sleep, but the APIServerError raised
    inside the [try] reaches the [except] clause and becomes TypeError. *)
Theorem C3_http_500_raises_type_error :
  let '(o, _, evs) :=
    _make_request (default_client (Some "k")) server_500
      "GET" (get_endpoints "price") None in
  o = Raise type_error /\ http_calls evs = 1%nat /\ sleeps evs = [] /\
  attempt_body (server_500 0%nat)
    = Raise (mk_exn APIServerError "Server error: 500 maintenance").
Proof. vm_compute. auto. Qed.

(** C4: every operation should return a JSON mapping or raise an error of
    the API taxonomy or a precondition error.  get_price on a client whose
    transport has a connection fault lets TypeError escape. *)
Theorem C4_get_price_escapes_type_error :
  let '(o, _, _) := get_price (default_client None) always_connection_fault in
  o = Raise type_error /\ allowed_outcome o = false.
Proof. vm_compute. auto. Qed.

(** C9: with max_retries >= 1, the attempt loop never runs out of attempt
    indices, so the fall-through [raise APIError("Request failed after all
    retries.")] is unreachable (for any [except] tuple, hence also for the
    one written). *)
Theorem C9_fallthrough_unreachable (h : list pyclass) (m : Z) (tr : transport)
    (method url : string) (json_data : option json) :
  1 <= m ->
  fst (attempt_loop h m tr method url json_data (py_range m)) <> LoopExhausted.
Proof.
  intros Hm. unfold py_range.
  apply attempt_loop_seq_done; lia.
Qed.

Lemma C9_fallthrough_unreachable_witness :
  1 <= 3 /\
  fst (attempt_loop source_handlers 3 always_connection_fault "GET"
         "https://api.buysteampoints.com/api/price" None (py_range 3))
  <> LoopExhausted.
Proof.
  split; [lia|].
  apply (C9_fallthrough_unreachable source_handlers 3 always_connection_fault
           "GET" "https://api.buysteampoints.com/api/price" None).
  lia.
Defined.

(* ------------------------------------------------------------------ *)
(** * Claims about the payload validators *)

(** Validators return their argument unchanged when they accept it. *)
Lemma validate_puan_multiple_id (v w : Z) :
  validate_puan_multiple v = inr w -> w = v.
Proof.
  unfold validate_puan_multiple.
  destruct (v <? MIN_POINTS); [discriminate|].
  destruct (negb (v mod POINT_MULTIPLE =? 0)); [discriminate|].
  congruence.
Qed.

Lemma validate_steam_link_id (v w : string) :
  validate_steam_link v = inr w -> w = v.
Proof.
  unfold validate_steam_link.
  destruct (startswith v "https://"); [congruence|].
  destruct (startswith v "7656" && (String.length v =? 17)%nat && py_isdigit v);
    congruence.
Qed.


(** C5: BuyOrder's puan validator accepts exactly the integers that are at
    least 100 and multiples of 100, returning them unrounded; any other
    integer makes BuyOrder construction fail with a ValidationError, and a
    valid puan with an accepted steam_link makes it succeed. *)
Theorem C5_puan_validation (key link : string) (v : Z) :
  ((exists w, validate_puan_multiple v = inr w) <-> 100 <= v /\ v mod 100 = 0) /\
  (forall w, validate_puan_multiple v = inr w -> w = v) /\
  (~ (100 <= v /\ v mod 100 = 0) ->
     exists msg, BuyOrder_new key v link = inl (mk_exn ValidationError msg)) /\
  (100 <= v /\ v mod 100 = 0 -> (exists l, validate_steam_link link = inr l) ->
     exists o, BuyOrder_new key v link = inr o).
Proof.
  assert (Hval : (exists w, validate_puan_multiple v = inr w)
                 <-> 100 <= v /\ v mod 100 = 0).
  { unfold validate_puan_multiple, MIN_POINTS, POINT_MULTIPLE.
    destruct (v <? 100) eqn:E1.
    - apply Z.ltb_lt in E1. split; [intros [w Hw]; discriminate|lia].
    - apply Z.ltb_ge in E1. destruct (v mod 100 =? 0) eqn:E2; simpl.
      + apply Z.eqb_eq in E2. split; eauto.
      + apply Z.eqb_neq in E2. split; [intros [w Hw]; discriminate|lia]. }
  split; [exact Hval|]. split; [apply validate_puan_multiple_id|]. split.
  - intros Hn. unfold BuyOrder_new.
    destruct (validate_puan_multiple v) as [m|w] eqn:Ev.
    + eexists. reflexivity.
    + exfalso. apply Hn, Hval. eauto.
  - intros Hp [l Hl]. unfold BuyOrder_new.
    destruct (proj2 Hval Hp) as [w Hw]. rewrite Hw, Hl. eauto.
Qed.

Lemma C5_puan_validation_witness :
  (forall w, validate_puan_multiple 1999 = inr w -> w = 1999) /\
  exists msg, BuyOrder_new "k" 1999 "https://x" = inl (mk_exn ValidationError msg).
Proof.
  destruct (C5_puan_validation "k" "https://x" 1999) as [_ [H2 [H3 _]]].
  split; [exact H2|]. apply H3. vm_compute. intros [_ H]. discriminate.
Defined.

(** C6: a steam_link that does not start with "https://" should be accepted
    only when it is 17 digits starting with "7656".  [str.isdigit] also holds
    for superscript digits, so the 17-character string "7656" followed by
    thirteen U+00B2 is accepted although it is not made of digits 0-9. *)
Theorem C6_superscript_link_accepted :
  validate_steam_link superscript_steam_link = inr superscript_steam_link /\
  String.length superscript_steam_link = 17%nat /\
  startswith superscript_steam_link "https://" = false /\
  all_chars ascii_decimal superscript_steam_link = false.
Proof. vm_compute. auto. Qed.

(* ------------------------------------------------------------------ *)
(** * Claims about the operation wrappers and the session *)

(** C7: with no API key (None or ""), buy and get_balance raise ValueError,
    a precondition error outside the API taxonomy, leave the client as it
    was and make no network call; get_price issues its GET all the same. *)
Theorem C7_missing_key_precondition (c : client) (tr : transport) (p : Z)
    (link : string) :
  api_key_missing (api_key c) = true -> 1 <= _max_retries c ->
  (let '(o, c', evs) := buy c tr p link in
   o = Raise (mk_exn ValueError_ "API key is required for buy operations") /\
   c' = c /\ evs = [] /\
   precondition_error (mk_exn ValueError_ "") = true /\
   in_taxonomy (mk_exn ValueError_ "") = false) /\
  (let '(o, c', evs) := get_balance c tr in
   o = Raise (mk_exn ValueError_ "API key is required for balance operations") /\
   c' = c /\ evs = []) /\
  In (HttpCall "GET" (base_url c ++ "/api/price") None) (snd (get_price c tr)).
Proof.
  intros Hk Hm. unfold buy, get_balance. rewrite Hk.
  split; [repeat split|split; [repeat split|]].
  apply (make_request_calls source_handlers c tr "GET" "/api/price" None Hm).
Qed.

Lemma C7_missing_key_precondition_witness :
  api_key_missing (api_key (default_client None)) = true /\
  1 <= _max_retries (default_client None) /\
  let '(o, c', evs) := buy (default_client None) always_connection_fault 100
                         "https://x" in
  o = Raise (mk_exn ValueError_ "API key is required for buy operations") /\
  c' = default_client None /\ evs = [] /\
  precondition_error (mk_exn ValueError_ "") = true /\
  in_taxonomy (mk_exn ValueError_ "") = false.
Proof.
  split; [reflexivity|]. split; [vm_compute; discriminate|].
  apply (C7_missing_key_precondition (default_client None)
           always_connection_fault 100 "https://x"); [reflexivity|].
  vm_compute. discriminate.
Defined.

(** C8: close releases an open session and forgets it; on a client with no
    session or a closed one it does nothing; a second close right after a
    close does nothing and releases nothing. *)
Theorem C8_close_idempotent (c : client) :
  (session_open c = false -> close c = (c, [])) /\
  close (fst (close c)) = (fst (close c), []).
Proof.
  unfold close. split.
  - intros H. rewrite H. reflexivity.
  - destruct (session_open c) eqn:E; simpl; [reflexivity|]. rewrite E. reflexivity.
Qed.

Lemma C8_close_idempotent_witness :
  close (set_session (default_client None) (Some (mk_session true)))
  = (set_session (default_client None) (Some (mk_session true)), []) /\
  close (fst (close (set_session (default_client None) (Some (mk_session false)))))
  = (fst (close (set_session (default_client None) (Some (mk_session false)))), []).
Proof.
  split.
  - apply (proj1 (C8_close_idempotent
                    (set_session (default_client None) (Some (mk_session true))))).
    reflexivity.
  - apply (proj2 (C8_close_idempotent
                    (set_session (default_client None) (Some (mk_session false))))).
Defined.

(** C10: a constructed BuyOrder holds the caller's api_key, puan and
    steam_link unchanged, its [.dict()] carries them verbatim, and buy sends
    that dict as the body of its POST to /api/buy. *)
Theorem C10_buyorder_verbatim (c : client) (tr : transport) (v : Z)
    (link : string) (o : BuyOrder) :
  BuyOrder_new (key_of (api_key c)) v link = inr o ->
  bo_api_key o = key_of (api_key c) /\ puan o = v /\ steam_link o = link /\
  BuyOrder_dict o = JObj [("api_key", JStr (key_of (api_key c)));
                          ("puan", JInt v); ("steam_link", JStr link)] /\
  (api_key_missing (api_key c) = false -> 1 <= _max_retries c ->
   In (HttpCall "POST" (base_url c ++ "/api/buy") (Some (BuyOrder_dict o)))
      (snd (buy c tr v link))).
Proof.
  intros Ho.
  assert (Hfields : bo_api_key o = key_of (api_key c) /\ puan o = v /\
                    steam_link o = link).
  { unfold BuyOrder_new in Ho.
    destruct (validate_puan_multiple v) as [|p] eqn:Ep; [discriminate|].
    destruct (validate_steam_link link) as [|l] eqn:El; [discriminate|].
    apply validate_puan_multiple_id in Ep. apply validate_steam_link_id in El.
    injection Ho as <-. simpl. auto. }
  destruct Hfields as [H1 [H2 H3]].
  repeat split; auto.
  - unfold BuyOrder_dict. rewrite H1, H2, H3. reflexivity.
  - intros Hk Hm. unfold buy. rewrite Hk, Ho.
    apply (make_request_calls source_handlers c tr "POST" "/api/buy"); exact Hm.
Qed.

Lemma C10_buyorder_verbatim_witness :
  exists o, BuyOrder_new "k" 1900 "76561199000000000" = inr o /\
  puan o = 1900 /\ steam_link o = "76561199000000000".
Proof.
  eexists. split; [vm_compute; reflexivity|].
  destruct (C10_buyorder_verbatim (default_client (Some "k")) server_500 1900
              "76561199000000000"
              (mk_BuyOrder "k" 1900 "76561199000000000")) as [_ [H2 [H3 _]]];
    [vm_compute; reflexivity|].
  split; assumption.
Defined.

(* ------------------------------------------------------------------ *)
(** * Further properties of the client *)

(** The attempt loop only calls the network and sleeps. *)
Lemma attempt_loop_no_session_events (h : list pyclass) (m : Z) (tr : transport)
    (method url : string) (d : option json) (attempts : list nat) :
  sessions_created (snd (attempt_loop h m tr method url d attempts)) = 0%nat /\
  sessions_released (snd (attempt_loop h m tr method url d attempts)) = 0%nat.
Proof.
  induction attempts as [|a rest IH]; [split; reflexivity|].
  simpl. destruct (attempt_body (tr a)) as [r|e]; [split; reflexivity|].
  destruct (except_match h e); try (split; reflexivity).
  destruct (Z.of_nat a <? m - 1); [|split; reflexivity].
  destruct (attempt_loop h m tr method url d rest) as [x evs]. exact IH.
Qed.

(** X1: [_ensure_session] leaves an open session; it creates one, with the
    configured timeout, exactly when none was open, and a second call does
    nothing. *)
Theorem X1_ensure_session_open (c : client) :
  let (c', evs) := _ensure_session c in
  session_open c' = true /\
  evs = (if session_open c then [] else [SessionCreated (_request_timeout c)]) /\
  (session_open c = true -> c' = c) /\
  _ensure_session c' = (c', []).
Proof.
  unfold _ensure_session. destruct (session_open c) eqn:E.
  - rewrite E. repeat split; auto.
  - simpl. unfold session_open. simpl. repeat split; discriminate.
Qed.

(** The effect of one request on the client and on the session. *)
Lemma make_request_session (h : list pyclass) (c : client) (tr : transport)
    (method endpoint : string) (d : option json) :
  let '(_, c', evs) := make_request_with h c tr method endpoint d in
  c' = fst (_ensure_session c) /\
  session_open c' = true /\
  sessions_released evs = 0%nat /\
  sessions_created evs = (if session_open c then 0 else 1)%nat.
Proof.
  unfold make_request_with.
  pose proof (X1_ensure_session_open c) as Hx.
  destruct (_ensure_session c) as [c' ev0]. destruct Hx as [Ho [He _]].
  destruct (attempt_loop_no_session_events h (_max_retries c') tr method
              (base_url c ++ endpoint) d (py_range (_max_retries c'))) as [Hc Hr].
  destruct (attempt_loop h (_max_retries c') tr method (base_url c ++ endpoint) d
              (py_range (_max_retries c'))) as [x evs]. simpl in Hc, Hr.
  unfold sessions_created, sessions_released in *.
  rewrite !filter_app, !length_app, Hc, Hr. subst ev0.
  destruct (session_open c); simpl; auto.
Qed.

(** X2: a request never closes the session and keeps the configuration: the
    client after _make_request is the client after [_ensure_session], with
    an open session; a session is created only if none was open. *)
Theorem X2_make_request_keeps_session (c : client) (tr : transport)
    (method endpoint : string) (d : option json) :
  let '(_, c', evs) := _make_request c tr method endpoint d in
  session_open c' = true /\
  base_url c' = base_url c /\ api_key c' = api_key c /\
  _max_retries c' = _max_retries c /\ _request_timeout c' = _request_timeout c /\
  sessions_released evs = 0%nat /\
  sessions_created evs = (if session_open c then 0 else 1)%nat.
Proof.
  pose proof (make_request_session source_handlers c tr method endpoint d) as H.
  unfold _make_request.
  destruct (make_request_with source_handlers c tr method endpoint d)
    as [[o c'] evs].
  destruct H as [-> [Ho [Hr Hc]]].
  destruct (ensure_session_config c) as [Hb [Hm Hk]].
  repeat split; auto.
  unfold _ensure_session. destruct (session_open c); reflexivity.
Qed.



(** Whatever the attempt body does, under the [except] tuple as written
    only a decoded body of a response below 400 survives. *)
Lemma attempt_body_source_outcome (r : attempt_result) :
  match attempt_body r with
  | Return j => Return j
  | Raise _ => Raise type_error
  end =
  match r with
  | Response st (Some b) => if st <? 400 then Return b else Raise type_error
  | _ => Raise type_error
  end.
Proof.
  destruct r as [st [b|]|e]; try reflexivity.
  unfold attempt_body.
  destruct (Z.leb_spec 400 st) as [H|H].
  - rewrite (proj2 (Z.ltb_ge st 400) H).
    replace (400 <=? st) with true by (symmetry; apply Z.leb_le; exact H).
    destruct (dict_get b "error" (JStr "Unknown error")) as [e|v];
      [reflexivity|destruct (_ && _); reflexivity].
  - rewrite (proj2 (Z.ltb_lt st 400) H).
    replace (400 <=? st) with false by (symmetry; apply Z.leb_gt; exact H).
    reflexivity.
Qed.

(** X4: as written, _make_request with max_retries >= 1 makes exactly one
    network call and never sleeps; it returns the decoded body when the
    first response has a status below 400 and a JSON body, and raises
    TypeError in every other case (transport fault, HTTP error, body that
    is not JSON). *)
Theorem X4_make_request_one_attempt (c : client) (tr : transport)
    (method endpoint : string) (d : option json) :
  1 <= _max_retries c ->
  let '(o, _, evs) := _make_request c tr method endpoint d in
  o = match tr 0%nat with
      | Response st (Some b) => if st <? 400 then Return b else Raise type_error
      | _ => Raise type_error
      end /\
  http_calls evs = 1%nat /\ sleeps evs = [].
Proof.
  intros Hm. unfold _make_request, make_request_with.
  destruct (ensure_session_config c) as [_ [Hr _]].
  destruct (_ensure_session c) as [c' ev0] eqn:Ee. simpl in Hr.
  assert (Hev0 : http_calls ev0 = 0%nat /\ sleeps ev0 = []).
  { unfold _ensure_session in Ee. destruct (session_open c);
      injection Ee as _ <-; split; reflexivity. }
  unfold py_range. rewrite Hr.
  destruct (Z.to_nat (_max_retries c)) as [|k] eqn:Ek; [lia|].
  cbn [seq]. rewrite attempt_loop_source_first.
  rewrite <- (attempt_body_source_outcome (tr 0%nat)).
  destruct Hev0 as [Hc Hsl]. unfold http_calls, sleeps in *.
  destruct (attempt_body (tr 0%nat));
    rewrite filter_app, length_app, flat_map_app, Hc, Hsl; simpl; auto.
Qed.

Lemma X4_make_request_one_attempt_witness :
  1 <= _max_retries (default_client None) /\
  let '(o, _, evs) := _make_request (default_client None) two_timeouts_then_ok
                        "GET" "/api/price" None in
  o = Raise type_error /\ http_calls evs = 1%nat /\ sleeps evs = [].
Proof.
  split; [vm_compute; discriminate|].
  apply (X4_make_request_one_attempt (default_client None) two_timeouts_then_ok
           "GET" "/api/price" None).
  vm_compute. discriminate.
Defined.

(** X5: with max_retries <= 0 the loop body never runs: no network call is
    made and _make_request raises APIError "Request failed after all
    retries." (for any [except] tuple). *)
Theorem X5_no_attempt_budget (h : list pyclass) (c : client) (tr : transport)
    (method endpoint : string) (d : option json) :
  _max_retries c <= 0 ->
  let '(o, _, evs) := make_request_with h c tr method endpoint d in
  o = Raise (mk_exn APIError "Request failed after all retries.") /\
  http_calls evs = 0%nat.
Proof.
  intros Hm. unfold make_request_with.
  destruct (ensure_session_config c) as [_ [Hr _]].
  destruct (_ensure_session c) as [c' ev0] eqn:Ee. simpl in Hr.
  unfold py_range. rewrite Hr.
  replace (Z.to_nat (_max_retries c)) with 0%nat by lia. simpl.
  split; [reflexivity|].
  unfold _ensure_session in Ee. destruct (session_open c);
    injection Ee as _ <-; reflexivity.
Qed.

Lemma X5_no_attempt_budget_witness :
  _max_retries (PointsHubClient None "https://h" 0 1800) <= 0 /\
  let '(o, _, evs) := _make_request (PointsHubClient None "https://h" 0 1800)
                        server_500 "GET" "/api/price" None in
  o = Raise (mk_exn APIError "Request failed after all retries.") /\
  http_calls evs = 0%nat.
Proof.
  split; [vm_compute; discriminate|].
  apply (X5_no_attempt_budget source_handlers
           (PointsHubClient None "https://h" 0 1800) server_500
           "GET" "/api/price" None).
  vm_compute. discriminate.
Defined.




(** X7: set_api_key takes effect for the next call: after set_api_key k
    with k non-empty, get_balance POSTs {"api_key": k} to /api/balance;
    after set_api_key "" it still raises the missing-key ValueError. *)
Theorem X7_set_api_key_balance (c : client) (tr : transport) (k : string) :
  1 <= _max_retries c ->
  (k <> "" ->
   In (HttpCall "POST" (base_url c ++ "/api/balance")
         (Some (JObj [("api_key", JStr k)])))
      (snd (get_balance (set_api_key c k) tr))) /\
  (k = "" ->
   get_balance (set_api_key c k) tr =
   (Raise (mk_exn ValueError_ "API key is required for balance operations"),
    set_api_key c k, [])).
Proof.
  intros Hm. split.
  - intros Hk. unfold get_balance. simpl api_key.
    replace (api_key_missing (Some k)) with false
      by (symmetry; apply String.eqb_neq; exact Hk).
    apply (make_request_calls source_handlers (set_api_key c k) tr "POST"
             "/api/balance"); exact Hm.
  - intros ->. reflexivity.
Qed.

Lemma X7_set_api_key_balance_witness :
  In (HttpCall "POST" "https://api.buysteampoints.com/api/balance"
        (Some (JObj [("api_key", JStr "key1")])))
     (snd (get_balance (set_api_key (default_client None) "key1") server_500)).
Proof.
  apply (proj1 (X7_set_api_key_balance (default_client None) server_500 "key1"
                  ltac:(vm_compute; discriminate))).
  discriminate.
Defined.

(** X8: with an API key set, buy with an invalid puan or steam_link raises
    pydantic's ValidationError before anything else: no session is created,
    no network call is made and the client is unchanged. *)
Theorem X8_buy_invalid_payload (c : client) (tr : transport) (p : Z)
    (link : string) :
  api_key_missing (api_key c) = false ->
  (exists msg, validate_puan_multiple p = inl msg) \/
  (exists msg, validate_steam_link link = inl msg) ->
  buy c tr p link =
  (Raise (mk_exn ValidationError "validation error for BuyOrder"), c, []).
Proof.
  intros Hk Hv. unfold buy, BuyOrder_new. rewrite Hk.
  destruct Hv as [[msg Hp]|[msg Hl]].
  - rewrite Hp. reflexivity.
  - rewrite Hl. destruct (validate_puan_multiple p); reflexivity.
Qed.

Lemma X8_buy_invalid_payload_witness :
  buy (default_client (Some "k")) server_500 150 "https://x" =
  (Raise (mk_exn ValidationError "validation error for BuyOrder"),
   default_client (Some "k"), []).
Proof.
  apply X8_buy_invalid_payload; [reflexivity|].
  left. eexists. reflexivity.
Defined.

(** X9: get_price does not depend on the API key: with or without a key,
    and whatever key, it gives the same result and the same traffic. *)
Theorem X9_get_price_key_independent (c : client) (tr : transport) (k : string) :
  let '(o1, c1, e1) := get_price c tr in
  let '(o2, c2, e2) := get_price (set_api_key c k) tr in
  o1 = o2 /\ e1 = e2 /\ c2 = set_api_key c1 k.
Proof.
  unfold get_price, _make_request, make_request_with, _ensure_session.
  unfold session_open. cbn [sess set_api_key base_url _max_retries _request_timeout].
  destruct (sess c) as [[[|]]|]; cbn [negb set_session sess_closed
    _max_retries base_url api_key _request_timeout sess];
    destruct (attempt_loop _ _ _ _ _ _ _); auto.
Qed.


